(** * maps_generator/generator/exceptions.py: the exit-status checker

    A shallow embedding of [wait_and_raise_if_fail] and of the error
    taxonomy it raises into.  The Python function mutates the handle it is
    given (it reads the pipes and pops the head of [p.args]) and leaves by an
    exception, so it is embedded in a state-and-exception monad over the
    handle, together with a log of the effects performed on it. *)

From Stdlib Require Import ZArith List String Ascii Bool Lia.
From Stdlib Require Import Strings.Byte.
Import ListNotations.
Open Scope string_scope.

(** ** Error taxonomy (lines 4-33) *)

Inductive generator_error : Type :=
| MapsGeneratorError
| OptionNotFound
| ValidationError
| ContinueError
| SkipError
| BadExitStatusError
| ParseError
| FailedTest.

(** The interpreter's own exceptions that the checker can run into. *)
Inductive builtin_error : Type :=
| AttributeError (attr : string)
| TypeError
| IndexError
| UnicodeDecodeError.

Inductive exn : Type :=
| Generator (kind : generator_error) (msg : string)
| Builtin (kind : builtin_error).

(** ** Python values used by the checker

    A [str] is held as the Rocq string of its UTF-8 encoding, so [+] is
    [append] and [==] is equality of strings.  [logs] and [errors] are either
    [None] or a [str]. *)

Inductive pyval : Type :=
| PyNone
| PyStr (s : string).

Definition pyval_eqb (a b : pyval) : bool :=
  match a, b with
  | PyNone, PyNone => true
  | PyStr s, PyStr t => String.eqb s t
  | _, _ => false
  end.

(** [a + b]: defined on two [str], a [TypeError] when either side is [None]. *)
Definition py_add (a b : pyval) : exn + pyval :=
  match a, b with
  | PyStr s, PyStr t => inr (PyStr (s ++ t))
  | _, _ => inl (Builtin TypeError)
  end.

(** What an f-string replacement field [{v}] prints. *)
Definition py_format (v : pyval) : string :=
  match v with
  | PyNone => "None"
  | PyStr s => s
  end.

(** ** [bytes.decode()]: strict UTF-8

    Well-formed byte sequences of the Unicode standard (table 3-7): no
    overlong forms, no surrogates, nothing above U+10FFFF, no truncated
    sequence. *)

Definition in_range (lo hi b : N) : bool := (N.leb lo b && N.leb b hi)%N.

Definition cont (b : N) : bool := in_range 128 191 b.

Fixpoint utf8_valid_fuel (fuel : nat) (bs : list N) : bool :=
  match fuel with
  | O => match bs with [] => true | _ => false end
  | S fuel' =>
    match bs with
    | [] => true
    | b0 :: r0 =>
      if N.leb b0 127 then utf8_valid_fuel fuel' r0
      else if in_range 194 223 b0 then
        match r0 with
        | b1 :: r1 => cont b1 && utf8_valid_fuel fuel' r1
        | _ => false
        end
      else if in_range 224 239 b0 then
        match r0 with
        | b1 :: b2 :: r2 =>
          (if N.eqb b0 224 then in_range 160 191 b1
           else if N.eqb b0 237 then in_range 128 159 b1
           else cont b1)
          && cont b2 && utf8_valid_fuel fuel' r2
        | _ => false
        end
      else if in_range 240 244 b0 then
        match r0 with
        | b1 :: b2 :: b3 :: r3 =>
          (if N.eqb b0 240 then in_range 144 191 b1
           else if N.eqb b0 244 then in_range 128 143 b1
           else cont b1)
          && cont b2 && cont b3 && utf8_valid_fuel fuel' r3
        | _ => false
        end
      else false
    end
  end.

Definition utf8_valid (bs : list byte) : bool :=
  utf8_valid_fuel (List.length bs) (List.map Byte.to_N bs).

(** [None] stands for the [UnicodeDecodeError] of a malformed input. *)
Definition decode (bs : list byte) : option string :=
  if utf8_valid bs then Some (string_of_list_byte bs) else None.

(** ** Process handles

    The checker is duck-typed: it looks attributes up by name, and a missing
    one is an [AttributeError].  An attribute is therefore an [option]; the
    streams of a [Popen] are in addition [None] when the child's descriptor
    was not piped.  The argument list is a Python list of [str] and the
    pipes are binary, as [Popen] opens them by default. *)

(** A binary pipe: the bytes not read yet. *)
Record stream : Type := mkStream { unread : list byte }.

(** A file-like destination with a [.name]; its contents are carried along
    to tell whether they are touched. *)
Record named_file : Type := mkFile { name : string; contents : list byte }.

Record handle : Type := mkHandle {
  exact_popen : bool;                 (* type(p) is subprocess.Popen *)
  wait_result : option Z;             (* what p.wait() returns, if p has it *)
  returncode : option Z;              (* a status stored on the handle *)
  args : option (list string);        (* p.args, a list of str *)
  stdout : option (option stream);    (* p.stdout: absent, None or a pipe *)
  stderr : option (option stream);
  output : option named_file;         (* p.output *)
  error : option named_file           (* p.error *)
}.

(** Effects performed on the handle, in program order. *)
Inductive fd : Type := Stdout | Stderr.

Inductive event : Type :=
| EvWait
| EvRead (which : fd) (n : nat)
| EvPop.

Record world : Type := mkWorld { proc : handle; log : list event }.

Definition start (p : handle) : world := mkWorld p [].

(** ** The monad: state over [world], exceptions that keep the state *)

Definition M (A : Type) : Type := world -> (exn + A) * world.

Definition ret {A} (a : A) : M A := fun w => (inr a, w).
Definition raise {A} (e : exn) : M A := fun w => (inl e, w).
Definition bind {A B} (m : M A) (k : A -> M B) : M B :=
  fun w => match m w with
           | (inr a, w') => k a w'
           | (inl e, w') => (inl e, w')
           end.
Definition lift {A} (r : exn + A) : M A := fun w => (r, w).

Notation "x <- m ;; k" := (bind m (fun x => k))
  (at level 61, m at next level, right associativity).
Notation "m ;;; k" := (bind m (fun _ => k))
  (at level 61, right associativity).

Definition emit (e : event) : M unit :=
  fun w => (inr tt, mkWorld (proc w) (log w ++ [e])).

Definition getattr {A} (attr : string) (field : handle -> option A) : M A :=
  fun w => match field (proc w) with
           | Some a => (inr a, w)
           | None => (inl (Builtin (AttributeError attr)), w)
           end.

Definition set_args (l : list string) (p : handle) : handle :=
  mkHandle (exact_popen p) (wait_result p) (returncode p) (Some l)
           (stdout p) (stderr p) (output p) (error p).

Definition set_stream (which : fd) (s : stream) (p : handle) : handle :=
  match which with
  | Stdout => mkHandle (exact_popen p) (wait_result p) (returncode p) (args p)
                       (Some (Some s)) (stderr p) (output p) (error p)
  | Stderr => mkHandle (exact_popen p) (wait_result p) (returncode p) (args p)
                       (stdout p) (Some (Some s)) (output p) (error p)
  end.

(** [p.wait()] *)
Definition wait : M Z :=
  st <- getattr "wait" wait_result ;;
  emit EvWait ;;;
  ret st.

(** [s.read(n)] on the pipe [which] of the handle: the first [n] unread
    bytes (fewer at end of file), which are consumed. *)
Definition read (which : fd) (s : stream) (n : nat) : M (list byte) :=
  fun w => (inr (firstn n (unread s)),
            mkWorld (set_stream which (mkStream (skipn n (unread s))) (proc w))
                    (log w ++ [EvRead which n])).

(** [args.pop(0)]: [args] is the very list object held by [p.args], so the
    handle loses its head. *)
Definition pop0 : M string :=
  fun w => match args (proc w) with
           | Some (x :: l) => (inr x, mkWorld (set_args l (proc w)) (log w ++ [EvPop]))
           | _ => (inl (Builtin IndexError), w)
           end.

(** [' '.join(args)], on the list as it is when the field is evaluated,
    that is after the pop ([p.args] was looked up before, so it is there). *)
Definition join_args : M string :=
  fun w => match args (proc w) with
           | Some l => (inr (String.concat " " l), w)
           | None => (inr "", w)
           end.

Definition nl : string := String (ascii_of_nat 10) EmptyString.

(** The f-string of lines 50 and 57. *)
Definition message (exe rest logs : string) : string :=
  "The launch of " ++ exe ++ " failed." ++ nl ++
  "Arguments used: " ++ rest ++ nl ++
  "See details in " ++ logs.

Definition format_msg (logs : pyval) : M string :=
  exe <- pop0 ;;
  rest <- join_args ;;
  ret (message exe rest (py_format logs)).

Definition EX_OK : Z := 0.

(** Lines 44-45 and 46-47. *)
Definition read_decoded (which : fd) (s : option stream) : M pyval :=
  match s with
  | None => ret PyNone
  | Some st =>
    bs <- read which st 256 ;;
    match decode bs with
    | Some t => ret (PyStr t)
    | None => raise (Builtin UnicodeDecodeError)
    end
  end.

(** [if b != a: a += " and " + b] *)
Definition add_second (a b : pyval) : M pyval :=
  if pyval_eqb b a then ret a
  else
    t <- lift (py_add (PyStr " and ") b) ;;
    lift (py_add a t).

Definition wait_and_raise_if_fail : M unit :=
  st <- wait ;;
  if Z.eqb st EX_OK then ret tt
  else
    w0 <- (fun w => (inr w, w)) ;;
    if exact_popen (proc w0) then
      _ <- getattr "args" args ;;
      so <- getattr "stdout" stdout ;;
      se <- getattr "stderr" stderr ;;
      logs <- read_decoded Stdout so ;;
      errors <- read_decoded Stderr se ;;
      logs <- add_second logs errors ;;
      msg <- format_msg logs ;;
      raise (Generator BadExitStatusError msg)
    else
      _ <- getattr "args" args ;;
      out <- getattr "output" output ;;
      err <- getattr "error" error ;;
      logs <- add_second (PyStr (name out)) (PyStr (name err)) ;;
      msg <- format_msg logs ;;
      raise (Generator BadExitStatusError msg).

Definition run (p : handle) : (exn + unit) * world :=
  wait_and_raise_if_fail (start p).

Definition outcome (p : handle) : exn + unit := fst (run p).
Definition after (p : handle) : handle := proc (snd (run p)).
Definition effects (p : handle) : list event := log (snd (run p)).

(** ** Handles as the callers build them *)

Definition bytes (s : string) : list byte := list_byte_of_string s.

(** A [subprocess.Popen] that has been started on [a]; [so] and [se] are
    the pipes, [None] where the descriptor was not piped. *)
Definition popen (a : list string) (st : Z) (so se : option stream) : handle :=
  mkHandle true (Some st) (Some st) (Some a) (Some so) (Some se) None None.

(** Any other process-like object that logs into two named files. *)
Definition file_backed (a : list string) (st : Z) (out err : named_file) : handle :=
  mkHandle false (Some st) None (Some a) None None (Some out) (Some err).

Definition set_returncode (rc : option Z) (p : handle) : handle :=
  mkHandle (exact_popen p) (wait_result p) rc (args p)
           (stdout p) (stderr p) (output p) (error p).

Definition is_read (e : event) : bool :=
  match e with EvRead _ _ => true | _ => false end.

Definition is_wait (e : event) : bool :=
  match e with EvWait => true | _ => false end.

(** The pipes were read during the call. *)
Definition reads_streams (p : handle) : bool := existsb is_read (effects p).

(** Shape A by capability: an argument list with an executable, a wait
    operation, and two readable pipes. *)
Definition shape_a (p : handle) : bool :=
  match args p, wait_result p, stdout p, stderr p with
  | Some (_ :: _), Some _, Some (Some _), Some (Some _) => true
  | _, _, _, _ => false
  end.

Definition ffmpeg : list string := ["ffmpeg"; "-i"; "in.mp4"; "out.mp4"].

(** ** The class hierarchy of lines 4-33

    The base written in each class statement; [None] is the builtin
    [Exception], which is outside the taxonomy. *)
Definition base (k : generator_error) : option generator_error :=
  match k with
  | MapsGeneratorError => None
  | OptionNotFound => Some MapsGeneratorError
  | ValidationError => Some MapsGeneratorError
  | ContinueError => Some MapsGeneratorError
  | SkipError => Some MapsGeneratorError
  | BadExitStatusError => Some MapsGeneratorError
  | ParseError => Some MapsGeneratorError
  | FailedTest => Some MapsGeneratorError
  end.

Definition kind_eqb (a b : generator_error) : bool :=
  match a, b with
  | MapsGeneratorError, MapsGeneratorError
  | OptionNotFound, OptionNotFound
  | ValidationError, ValidationError
  | ContinueError, ContinueError
  | SkipError, SkipError
  | BadExitStatusError, BadExitStatusError
  | ParseError, ParseError
  | FailedTest, FailedTest => true
  | _, _ => false
  end.

(** [issubclass(k, h)]: [h] is [k] or is reached from [k] along [base]. *)
Fixpoint issubclass_fuel (fuel : nat) (k h : generator_error) : bool :=
  kind_eqb k h ||
  match fuel with
  | O => false
  | S fuel' =>
    match base k with
    | Some b => issubclass_fuel fuel' b h
    | None => false
    end
  end.

Definition issubclass (k h : generator_error) : bool := issubclass_fuel 8 k h.

(** Whether a clause [except h:] around a call catches what it raised.  The
    interpreter's own errors derive from [Exception] directly. *)
Definition caught_by (h : generator_error) (r : exn + unit) : bool :=
  match r with
  | inl (Generator k _) => issubclass k h
  | _ => false
  end.

(** All bytes are ASCII. *)
Definition ascii_only (bs : list byte) : bool :=
  forallb (fun b => N.leb (Byte.to_N b) 127) bs.

(** * Properties *)

Arguments decode : simpl never.
Arguments firstn : simpl never.
Arguments skipn : simpl never.

Ltac unfold_checker :=
  unfold reads_streams, outcome, after, effects, run, wait_and_raise_if_fail,
    wait, format_msg, read_decoded, add_second, pop0, join_args, getattr,
    emit, read, lift, bind, ret, raise, start in *.

(** Names the fields of the handle and replaces those the context fixes. *)
Ltac open_handle p :=
  destruct p as [ep wr rc a so se out err]; simpl in *; subst.

(** Case analysis on what the run, stated in a hypothesis, branches on. *)
Ltac split_run H :=
  repeat match type of H with
         | context [decode ?b] => destruct (decode b); simpl in H
         | context [String.eqb ?x ?y] => destruct (String.eqb x y); simpl in H
         | context [Z.eqb ?x ?y] => destruct (Z.eqb x y); simpl in H
         | context [match ?o with Some _ => _ | None => _ end] =>
             destruct o; simpl in H
         | context [if ?b then _ else _] => destruct b; simpl in H
         end.

(** Case analysis on what the run, stated in the goal, branches on. *)
Ltac split_goal :=
  repeat match goal with
         | |- context [decode ?b] => destruct (decode b); simpl
         | |- context [String.eqb ?x ?y] => destruct (String.eqb x y); simpl
         | |- context [match ?o with Some _ => _ | None => _ end] =>
             destruct o; simpl
         | |- context [match ?l with [] => _ | _ :: _ => _ end] =>
             destruct l; simpl
         end.


Lemma eqb_EX_OK_false (st : Z) : st <> EX_OK -> Z.eqb st EX_OK = false.
Proof. intro H. now apply Z.eqb_neq. Qed.

Lemma string_app_assoc (a b c : string) : (a ++ b) ++ c = a ++ (b ++ c).
Proof.
  induction a as [|ch a IH]; simpl; [reflexivity | now rewrite IH].
Qed.

(** A handle whose [wait] returns the success code: the call returns, and
    nothing but the wait has happened. *)
Lemma success_run (p : handle) :
  wait_result p = Some EX_OK -> run p = (inr tt, mkWorld p [EvWait]).
Proof.
  intro H. open_handle p. unfold_checker. simpl. reflexivity.
Qed.

(** [BadExitStatusError] is only raised on a status other than [EX_OK]. *)
Lemma bad_exit_only_on_failure (p : handle) (msg : string) :
  outcome p = inl (Generator BadExitStatusError msg) ->
  exists st, wait_result p = Some st /\ st <> EX_OK.
Proof.
  intro H. open_handle p. unfold_checker.
  destruct wr as [st|]; simpl in H; [|discriminate].
  exists st. split; [reflexivity|].
  intro E. subst st. simpl in H. discriminate.
Qed.

(** Some exception is raised whenever the status is not [EX_OK]. *)
Lemma failure_raises (p : handle) (st : Z) :
  wait_result p = Some st -> st <> EX_OK -> exists e, outcome p = inl e.
Proof.
  intros Hw Hst. open_handle p. unfold_checker. simpl.
  rewrite (eqb_EX_OK_false _ Hst). simpl.
  destruct ep; simpl.
  - destruct a as [a|]; simpl; [|eauto].
    destruct so as [so|]; simpl; [|eauto].
    destruct se as [se|]; simpl; [|eauto].
    destruct so as [so|], se as [se|]; simpl;
      repeat match goal with
             | |- context [decode ?b] => destruct (decode b); simpl
             | |- context [String.eqb ?x ?y] => destruct (String.eqb x y); simpl
             | |- context [match ?l with [] => _ | _ :: _ => _ end] =>
                 destruct l; simpl
             end; eauto.
  - destruct a as [a|]; simpl; [|eauto].
    destruct out as [out|]; simpl; [|eauto].
    destruct err as [err|]; simpl; [|eauto].
    destruct (String.eqb (name err) (name out)); simpl;
      destruct a; simpl; eauto.
Qed.

(** The spec's scenarios. *)
Example ffmpeg_fails :
  outcome (popen ffmpeg 1 (Some (mkStream (bytes "error: codec")))
                          (Some (mkStream (bytes "error: codec"))))
  = inl (Generator BadExitStatusError
           (message "ffmpeg" "-i in.mp4 out.mp4" "error: codec")).
Proof. reflexivity. Qed.

Example ffmpeg_succeeds :
  outcome (popen ffmpeg 0 (Some (mkStream (bytes "error: codec")))
                          (Some (mkStream (bytes "error: codec"))))
  = inr tt.
Proof. reflexivity. Qed.

(** The cut at 256 bytes can fall inside a character: 255 letters followed
    by an e-acute are valid UTF-8, their first 256 bytes are not, and the
    call leaves with [UnicodeDecodeError]. *)
Example cut_inside_character :
  let text := (repeat x61 255 ++ [xc3; xa9])%list in
  decode text <> None /\
  outcome (popen ffmpeg 1 (Some (mkStream text)) (Some (mkStream text)))
  = inl (Builtin UnicodeDecodeError).
Proof.
  cbv zeta. split; [vm_compute; discriminate | vm_compute; reflexivity].
Qed.

(** C1 (the error is raised exactly on a non-success status).  The code
    departs from it: a [Popen] started with [stdout=PIPE, stderr=STDOUT] has
    [p.stderr] equal to [None]; when it fails, line 49 adds [None] to a
    [str] and the call leaves with a [TypeError], not with
    [BadExitStatusError]. *)
Theorem C1_popen_merged_stderr_type_error :
  let p := popen ffmpeg 1 (Some (mkStream (bytes "error: codec"))) None in
  wait_result p = Some 1%Z /\ 1%Z <> EX_OK /\
  outcome p = inl (Builtin TypeError) /\
  args (after p) = Some ffmpeg.
Proof.
  cbv zeta. repeat split. discriminate.
Qed.

(** C2: when [wait] returns the success code the call returns normally, the
    argument list and both streams are as before, and the only effect on the
    handle is the wait itself: nothing was read. *)
Theorem C2_success_no_side_effects (p : handle) :
  wait_result p = Some EX_OK ->
  outcome p = inr tt /\
  args (after p) = args p /\
  stdout (after p) = stdout p /\
  stderr (after p) = stderr p /\
  after p = p /\
  effects p = [EvWait] /\
  reads_streams p = false.
Proof.
  intro H. unfold outcome, after, effects, reads_streams, effects.
  rewrite (success_run p H). simpl. repeat split.
Qed.

Lemma C2_success_no_side_effects_witness :
  let p := popen ffmpeg 0 (Some (mkStream (bytes "error: codec"))) None in
  outcome p = inr tt /\
  args (after p) = args p /\
  stdout (after p) = stdout p /\
  stderr (after p) = stderr p /\
  after p = p /\
  effects p = [EvWait] /\
  reads_streams p = false.
Proof.
  cbv zeta. apply C2_success_no_side_effects. reflexivity.
Defined.

(** Whenever [BadExitStatusError] is raised, by either branch: the message
    is the f-string over the head and the tail of the argument list, and the
    handle is left with the tail. *)
Lemma bad_exit_inv (p : handle) (exe : string) (rest : list string)
      (msg : string) (w : world) :
  args p = Some (exe :: rest) ->
  run p = (inl (Generator BadExitStatusError msg), w) ->
  (exists d, msg = message exe (String.concat " " rest) d) /\
  args (proc w) = Some rest /\
  In EvPop (log w).
Proof.
  intros Ha H. open_handle p. unfold_checker. simpl in H.
  split_run H; try discriminate;
    injection H as Hm Hw; subst; simpl;
    (split; [eexists; reflexivity | split; [reflexivity | simpl; tauto]]).
Qed.

(** C3: a [BadExitStatusError] raised for a [Popen] handle carries the three
    lines "The launch of <exe> failed.", "Arguments used: <rest joined by
    spaces>", "See details in <d>", where <exe> is the head of the argument
    list and <rest> its tail in the original order. *)
Theorem C3_popen_message_structure
        (p : handle) (st : Z) (exe : string) (rest : list string) (msg : string) :
  exact_popen p = true ->
  wait_result p = Some st -> st <> EX_OK ->
  args p = Some (exe :: rest) ->
  outcome p = inl (Generator BadExitStatusError msg) ->
  exists d,
    msg = "The launch of " ++ exe ++ " failed." ++ nl ++
          "Arguments used: " ++ String.concat " " rest ++ nl ++
          "See details in " ++ d.
Proof.
  intros _ _ _ Ha H. unfold outcome in H.
  destruct (run p) as [r w] eqn:E. simpl in H. subst r.
  destruct (bad_exit_inv p exe rest msg w Ha E) as [[d Hd] _].
  exists d. exact Hd.
Qed.

Lemma C3_popen_message_structure_witness :
  exists d,
    "The launch of ffmpeg failed." ++ nl ++
    "Arguments used: -i in.mp4 out.mp4" ++ nl ++
    "See details in error: codec"
    = "The launch of " ++ "ffmpeg" ++ " failed." ++ nl ++
      "Arguments used: " ++ String.concat " " ["-i"; "in.mp4"; "out.mp4"] ++ nl ++
      "See details in " ++ d.
Proof.
  apply (C3_popen_message_structure
           (popen ffmpeg 1 (Some (mkStream (bytes "error: codec")))
                           (Some (mkStream (bytes "error: codec"))))
           1%Z "ffmpeg" ["-i"; "in.mp4"; "out.mp4"]).
  - reflexivity.
  - reflexivity.
  - discriminate.
  - reflexivity.
  - reflexivity.
Defined.

(** C4 (an absent stream is "no content", never a secondary error).  The
    guards of lines 44 and 46 leave [logs] or [errors] at [None] for an
    absent stream, but line 49 then concatenates it with a [str]: with
    exactly one stream absent the call leaves with [TypeError], whichever
    stream it is, after the present one has been read and before the
    message is composed. *)
Theorem C4_one_stream_absent_type_error :
  let content := Some (mkStream (bytes "error: codec")) in
  (outcome (popen ffmpeg 1 None content) = inl (Builtin TypeError) /\
   effects (popen ffmpeg 1 None content) = [EvWait; EvRead Stderr 256]) /\
  (outcome (popen ffmpeg 1 content None) = inl (Builtin TypeError) /\
   effects (popen ffmpeg 1 content None) = [EvWait; EvRead Stdout 256]).
Proof.
  cbv zeta. repeat split.
Qed.

(** C5: a failing [Popen] with both pipes present whose first 256 bytes
    decode to [t1] (stdout) and [t2] (stderr): the log reference of the
    message is [t1] alone when the two texts are equal, and
    "<t1> and <t2>" when they differ. *)
Theorem C5_popen_log_reference
        (p : handle) (st : Z) (exe : string) (rest : list string)
        (pout perr : stream) (t1 t2 : string) :
  exact_popen p = true ->
  wait_result p = Some st -> st <> EX_OK ->
  args p = Some (exe :: rest) ->
  stdout p = Some (Some pout) -> stderr p = Some (Some perr) ->
  decode (firstn 256 (unread pout)) = Some t1 ->
  decode (firstn 256 (unread perr)) = Some t2 ->
  outcome p =
  inl (Generator BadExitStatusError
         (message exe (String.concat " " rest)
                  (if String.eqb t1 t2 then t1 else t1 ++ " and " ++ t2))).
Proof.
  intros Hp Hw Hst Ha Hso Hse H1 H2. open_handle p. unfold_checker. simpl.
  rewrite (eqb_EX_OK_false _ Hst). simpl.
  rewrite H1. simpl. rewrite H2. simpl.
  rewrite (String.eqb_sym t2 t1).
  destruct (String.eqb t1 t2); reflexivity.
Qed.

Lemma C5_popen_log_reference_witness :
  outcome (popen ffmpeg 1 (Some (mkStream (bytes "error: codec")))
                          (Some (mkStream (bytes "no such file"))))
  = inl (Generator BadExitStatusError
           (message "ffmpeg" "-i in.mp4 out.mp4"
                    "error: codec and no such file")).
Proof.
  apply (C5_popen_log_reference
           (popen ffmpeg 1 (Some (mkStream (bytes "error: codec")))
                           (Some (mkStream (bytes "no such file"))))
           1%Z "ffmpeg" ["-i"; "in.mp4"; "out.mp4"]
           (mkStream (bytes "error: codec")) (mkStream (bytes "no such file"))
           "error: codec" "no such file");
    first [reflexivity | discriminate].
Defined.

(** C6: a failing handle that is not a [Popen] and has [output] and [error]
    destinations: the log reference is the output's name when the error's
    name is the same, "<output name> and <error name>" otherwise; both
    destinations are left as they were and nothing is read. *)
Theorem C6_file_backed_log_reference
        (p : handle) (st : Z) (exe : string) (rest : list string)
        (fo fe : named_file) :
  exact_popen p = false ->
  wait_result p = Some st -> st <> EX_OK ->
  args p = Some (exe :: rest) ->
  output p = Some fo -> error p = Some fe ->
  outcome p =
  inl (Generator BadExitStatusError
         (message exe (String.concat " " rest)
                  (if String.eqb (name fo) (name fe) then name fo
                   else name fo ++ " and " ++ name fe))) /\
  output (after p) = Some fo /\
  error (after p) = Some fe /\
  stdout (after p) = stdout p /\
  stderr (after p) = stderr p /\
  effects p = [EvWait; EvPop].
Proof.
  intros Hp Hw Hst Ha Ho He. open_handle p. unfold_checker. simpl.
  rewrite (eqb_EX_OK_false _ Hst). simpl.
  rewrite (String.eqb_sym (name fe) (name fo)).
  destruct (String.eqb (name fo) (name fe)); simpl; repeat split.
Qed.

Lemma C6_file_backed_log_reference_witness :
  let p := file_backed ffmpeg 2 (mkFile "out.log" (bytes "frame 1"))
                                (mkFile "err.log" (bytes "error: codec")) in
  outcome p =
  inl (Generator BadExitStatusError
         (message "ffmpeg" "-i in.mp4 out.mp4" "out.log and err.log")) /\
  output (after p) = Some (mkFile "out.log" (bytes "frame 1")) /\
  error (after p) = Some (mkFile "err.log" (bytes "error: codec")) /\
  stdout (after p) = stdout p /\
  stderr (after p) = stderr p /\
  effects p = [EvWait; EvPop].
Proof.
  cbv zeta.
  apply (C6_file_backed_log_reference
           (file_backed ffmpeg 2 (mkFile "out.log" (bytes "frame 1"))
                                 (mkFile "err.log" (bytes "error: codec")))
           2%Z "ffmpeg" ["-i"; "in.mp4"; "out.mp4"]
           (mkFile "out.log" (bytes "frame 1"))
           (mkFile "err.log" (bytes "error: codec")));
    first [reflexivity | discriminate].
Defined.



(** C9: a failing handle that is exactly a [Popen] with neither stream
    piped: [BadExitStatusError] is raised, and its log reference is the
    text "None", so the message ends with "See details in None". *)
Theorem C9_popen_no_streams_none
        (p : handle) (st : Z) (exe : string) (rest : list string) :
  exact_popen p = true ->
  wait_result p = Some st -> st <> EX_OK ->
  args p = Some (exe :: rest) ->
  stdout p = Some None -> stderr p = Some None ->
  outcome p =
  inl (Generator BadExitStatusError
         (message exe (String.concat " " rest) "None")) /\
  message exe (String.concat " " rest) "None" =
    ("The launch of " ++ exe ++ " failed." ++ nl ++
     "Arguments used: " ++ String.concat " " rest ++ nl) ++
    "See details in None".
Proof.
  intros Hp Hw Hst Ha Hso Hse. split.
  - open_handle p. unfold_checker. simpl.
    rewrite (eqb_EX_OK_false _ Hst). reflexivity.
  - unfold message. rewrite !string_app_assoc. reflexivity.
Qed.

Lemma C9_popen_no_streams_none_witness :
  outcome (popen ffmpeg 1 None None) =
  inl (Generator BadExitStatusError
         (message "ffmpeg" (String.concat " " ["-i"; "in.mp4"; "out.mp4"]) "None")) /\
  message "ffmpeg" (String.concat " " ["-i"; "in.mp4"; "out.mp4"]) "None" =
    ("The launch of " ++ "ffmpeg" ++ " failed." ++ nl ++
     "Arguments used: " ++ String.concat " " ["-i"; "in.mp4"; "out.mp4"] ++ nl) ++
    "See details in None".
Proof.
  apply (C9_popen_no_streams_none (popen ffmpeg 1 None None) 1%Z);
    first [reflexivity | discriminate].
Defined.

(** C8 as stated (the stream-reading path is chosen by capability, whatever
    the runtime type) fails: an instance of a subclass of [Popen] has every
    Shape-A capability, yet line 38 sends it to the other branch, where its
    pipes are never read and [p.output] is looked up. *)
Lemma C8_capability_probe_refuted :
  ~ (forall (p : handle) (st : Z),
        shape_a p = true -> wait_result p = Some st -> st <> EX_OK ->
        reads_streams p = true).
Proof.
  intro H.
  specialize (H (mkHandle false (Some 1%Z) (Some 1%Z) (Some ffmpeg)
                          (Some (Some (mkStream (bytes "error: codec"))))
                          (Some (Some (mkStream (bytes "error: codec"))))
                          None None)
                1%Z eq_refl eq_refl).
  assert (Hne : 1%Z <> EX_OK) by discriminate.
  specialize (H Hne). vm_compute in H. discriminate.
Qed.

(** C8, amended: the shape is decided by the exact runtime type.  A failing
    handle with the Shape-A capabilities has its pipes read exactly when its
    type is [subprocess.Popen] itself; any other one takes the branch of the
    named destinations, which reads nothing and needs [p.output] and
    [p.error]. *)
Theorem C8_dispatch_on_exact_type (p : handle) (st : Z) :
  shape_a p = true -> wait_result p = Some st -> st <> EX_OK ->
  (reads_streams p = true <-> exact_popen p = true) /\
  (exact_popen p = false -> output p = None ->
   outcome p = inl (Builtin (AttributeError "output"))).
Proof.
  intros Hs Hw Hst. open_handle p. unfold shape_a in Hs. simpl in Hs.
  destruct a as [[|exe rest]|]; try discriminate.
  destruct so as [[so|]|]; try discriminate.
  destruct se as [[se|]|]; try discriminate.
  clear Hs. unfold_checker. simpl.
  rewrite (eqb_EX_OK_false _ Hst). simpl.
  destruct ep; simpl.
  - split; [|discriminate].
    split; [reflexivity|]. intros _. split_goal; reflexivity.
  - split.
    + split; [|discriminate]. split_goal; discriminate.
    + intros _ Ho. subst out. reflexivity.
Qed.

Lemma C8_dispatch_on_exact_type_witness :
  let p := popen ffmpeg 1 (Some (mkStream (bytes "error: codec")))
                          (Some (mkStream (bytes "error: codec"))) in
  (reads_streams p = true <-> exact_popen p = true) /\
  (exact_popen p = false -> output p = None ->
   outcome p = inl (Builtin (AttributeError "output"))).
Proof.
  cbv zeta.
  apply (C8_dispatch_on_exact_type
           (popen ffmpeg 1 (Some (mkStream (bytes "error: codec")))
                           (Some (mkStream (bytes "error: codec"))))
           1%Z);
    first [reflexivity | discriminate].
Defined.

(** C10: on a handle of either shape, [wait] is the first thing done to the
    handle and is done once; whether the call returns depends on its result
    alone, a status stored on the handle changes nothing; and a handle
    without a wait operation is refused with an [AttributeError] before
    anything else is looked at, whatever its shape. *)
Theorem C10_wait_once_first (p : handle) :
  (forall st, wait_result p = Some st ->
     (exists tl, effects p = EvWait :: tl /\ existsb is_wait tl = false) /\
     (outcome p = inr tt <-> st = EX_OK) /\
     (forall rc, outcome (set_returncode rc p) = outcome p /\
                 effects (set_returncode rc p) = effects p /\
                 after (set_returncode rc p) = set_returncode rc (after p))) /\
  (wait_result p = None ->
     outcome p = inl (Builtin (AttributeError "wait")) /\
     effects p = [] /\ after p = p).
Proof.
  split.
  - intros st Hw. split; [|split].
    + open_handle p. unfold_checker. simpl.
      destruct (Z.eqb st EX_OK); simpl; [eexists; split; reflexivity|].
      destruct ep; simpl; split_goal; eexists; split; reflexivity.
    + split.
      * intro H. destruct (Z.eq_dec st EX_OK) as [E|E]; [exact E|].
        destruct (failure_raises p st Hw E) as [e He].
        rewrite He in H. discriminate.
      * intro E. subst st. unfold outcome. now rewrite (success_run p Hw).
    + intro rc'. open_handle p. unfold_checker. simpl.
      destruct (Z.eqb st EX_OK); simpl; [repeat split|].
      destruct ep; simpl; split_goal; repeat split.
  - intro Hw. open_handle p. unfold_checker. simpl. repeat split.
Qed.

Lemma C10_wait_once_first_witness :
  let p := file_backed ffmpeg 2 (mkFile "out.log" []) (mkFile "err.log" []) in
  ((exists tl, effects p = EvWait :: tl /\ existsb is_wait tl = false) /\
   (outcome p = inr tt <-> 2%Z = EX_OK) /\
   (forall rc, outcome (set_returncode rc p) = outcome p /\
               effects (set_returncode rc p) = effects p /\
               after (set_returncode rc p) = set_returncode rc (after p))) /\
  (let q := mkHandle false None (Some 0%Z) (Some ffmpeg) None None
                     (Some (mkFile "out.log" [])) (Some (mkFile "err.log" [])) in
   outcome q = inl (Builtin (AttributeError "wait")) /\
   effects q = [] /\ after q = q).
Proof.
  cbv zeta. split.
  - apply (proj1 (C10_wait_once_first
                    (file_backed ffmpeg 2 (mkFile "out.log" []) (mkFile "err.log" [])))
                 2%Z).
    reflexivity.
  - apply (proj2 (C10_wait_once_first
                    (mkHandle false None (Some 0%Z) (Some ffmpeg) None None
                              (Some (mkFile "out.log" []))
                              (Some (mkFile "err.log" []))))).
    reflexivity.
Defined.

(** * Further properties of the checker *)




Lemma generator_kind_inv (p : handle) (k : generator_error) (msg : string) :
  outcome p = inl (Generator k msg) -> k = BadExitStatusError.
Proof.
  intro H. destruct p as [ep wr rc a so se out err].
  unfold_checker. simpl in H.
  repeat (split_run H;
          try match type of H with
              | context [match ?l with [] => _ | _ :: _ => _ end] =>
                  destruct l; simpl in H
              end);
    try discriminate; injection H as Hk _; now subst.
Qed.

(** X3: of the eight kinds of the taxonomy the checker raises only
    [BadExitStatusError]. *)
Theorem X3_only_bad_exit_kind (p : handle) (k : generator_error) (msg : string) :
  outcome p = inl (Generator k msg) -> k = BadExitStatusError.
Proof. apply generator_kind_inv. Qed.

Lemma X3_only_bad_exit_kind_witness :
  BadExitStatusError = BadExitStatusError.
Proof.
  apply (X3_only_bad_exit_kind (popen ffmpeg 1 None None) BadExitStatusError
           (message "ffmpeg" "-i in.mp4 out.mp4" "None")).
  reflexivity.
Defined.

(** X4: a pipe of the handle only ever loses a prefix of at most 256 bytes:
    what is left unread after the call is a suffix of what was unread
    before, for standard output and for standard error alike and whatever
    the outcome. *)
Theorem X4_pipes_lose_a_prefix (p : handle) :
  (forall s, stdout p = Some (Some s) ->
     exists pre s', stdout (after p) = Some (Some s') /\
                    unread s = (pre ++ unread s')%list /\
                    (List.length pre <= 256)%nat) /\
  (forall s, stderr p = Some (Some s) ->
     exists pre s', stderr (after p) = Some (Some s') /\
                    unread s = (pre ++ unread s')%list /\
                    (List.length pre <= 256)%nat).
Proof.
  assert (Hkeep : forall s : stream,
             exists pre s', Some (Some s) = Some (Some s') /\
                            unread s = (pre ++ unread s')%list /\
                            (List.length pre <= 256)%nat).
  { intro s. exists [], s. repeat split. simpl. lia. }
  assert (Hcut : forall s : stream,
             exists pre s',
               Some (Some (mkStream (skipn 256 (unread s)))) = Some (Some s') /\
               unread s = (pre ++ unread s')%list /\
               (List.length pre <= 256)%nat).
  { intro s. exists (firstn 256 (unread s)), (mkStream (skipn 256 (unread s))).
    split; [reflexivity|]. split.
    - simpl. symmetry. apply firstn_skipn.
    - rewrite length_firstn. lia. }
  destruct p as [ep wr rc a so se out err]. unfold_checker. simpl.
  split; intros s Hs; subst;
    (destruct wr as [st|]; simpl; [|apply Hkeep]);
    (destruct (Z.eqb st EX_OK); simpl; [apply Hkeep|]);
    (destruct ep; simpl; split_goal; first [apply Hkeep | apply Hcut]).
Qed.

Lemma X4_pipes_lose_a_prefix_witness :
  let s := mkStream (bytes "error: codec") in
  exists pre s', stdout (after (popen ffmpeg 1 (Some s) None)) = Some (Some s') /\
                 unread s = (pre ++ unread s')%list /\
                 (List.length pre <= 256)%nat.
Proof.
  cbv zeta.
  apply (proj1 (X4_pipes_lose_a_prefix
                  (popen ffmpeg 1 (Some (mkStream (bytes "error: codec"))) None))).
  reflexivity.
Defined.

(** X5: when the first 256 bytes of a failing [Popen]'s standard output are
    not valid UTF-8, the call leaves with [UnicodeDecodeError] right after
    that read: standard error is not read and the argument list is kept. *)
Theorem X5_stdout_not_utf8
        (p : handle) (st : Z) (l : list string) (s : stream) (e : option stream) :
  exact_popen p = true ->
  wait_result p = Some st -> st <> EX_OK ->
  args p = Some l ->
  stdout p = Some (Some s) -> stderr p = Some e ->
  decode (firstn 256 (unread s)) = None ->
  outcome p = inl (Builtin UnicodeDecodeError) /\
  effects p = [EvWait; EvRead Stdout 256] /\
  stderr (after p) = Some e /\
  args (after p) = Some l.
Proof.
  intros Hp Hw Hst Ha Hso Hse Hd. open_handle p. unfold_checker. simpl.
  rewrite (eqb_EX_OK_false _ Hst). simpl. rewrite Hd. simpl. repeat split.
Qed.

Lemma X5_stdout_not_utf8_witness :
  let p := popen ffmpeg 1 (Some (mkStream [xff; x61]))
                          (Some (mkStream (bytes "error: codec"))) in
  outcome p = inl (Builtin UnicodeDecodeError) /\
  effects p = [EvWait; EvRead Stdout 256] /\
  stderr (after p) = Some (Some (mkStream (bytes "error: codec"))) /\
  args (after p) = Some ffmpeg.
Proof.
  cbv zeta.
  apply (X5_stdout_not_utf8
           (popen ffmpeg 1 (Some (mkStream [xff; x61]))
                           (Some (mkStream (bytes "error: codec"))))
           1%Z ffmpeg (mkStream [xff; x61])
           (Some (mkStream (bytes "error: codec"))));
    first [reflexivity | discriminate].
Defined.

Lemma ascii_valid_fuel (l : list N) :
  forallb (fun b => N.leb b 127) l = true ->
  utf8_valid_fuel (List.length l) l = true.
Proof.
  induction l as [|b l IH]; simpl; [reflexivity|].
  intro H. apply andb_true_iff in H. destruct H as [Hb Hl].
  rewrite Hb. apply IH. exact Hl.
Qed.

Lemma ascii_decodes (bs : list byte) :
  ascii_only bs = true -> decode bs = Some (string_of_list_byte bs).
Proof.
  intro H. unfold decode, utf8_valid.
  rewrite <- (length_map Byte.to_N bs).
  rewrite ascii_valid_fuel; [reflexivity|].
  unfold ascii_only in H. clear -H.
  induction bs as [|b bs IH]; simpl in *; [reflexivity|].
  apply andb_true_iff in H. destruct H as [Hb Hl].
  rewrite Hb. apply IH. exact Hl.
Qed.

(** X6: a failing [Popen] with a non-empty argument list and both pipes
    present always ends in [BadExitStatusError] when the first 256 bytes of
    each pipe are ASCII; the pipes are read standard output first, then
    standard error, and the argument list is popped last. *)
Theorem X6_ascii_output_bad_exit
        (p : handle) (st : Z) (exe : string) (rest : list string)
        (s1 s2 : stream) :
  exact_popen p = true ->
  wait_result p = Some st -> st <> EX_OK ->
  args p = Some (exe :: rest) ->
  stdout p = Some (Some s1) -> stderr p = Some (Some s2) ->
  ascii_only (firstn 256 (unread s1)) = true ->
  ascii_only (firstn 256 (unread s2)) = true ->
  (exists d, outcome p =
             inl (Generator BadExitStatusError
                    (message exe (String.concat " " rest) d))) /\
  effects p = [EvWait; EvRead Stdout 256; EvRead Stderr 256; EvPop].
Proof.
  intros Hp Hw Hst Ha Hso Hse H1 H2. open_handle p. unfold_checker. simpl.
  rewrite (eqb_EX_OK_false _ Hst). simpl.
  rewrite (ascii_decodes _ H1). simpl. rewrite (ascii_decodes _ H2). simpl.
  destruct (String.eqb _ _); simpl; split; try reflexivity; eexists; reflexivity.
Qed.

Lemma X6_ascii_output_bad_exit_witness :
  let p := popen ffmpeg 1 (Some (mkStream (bytes "error: codec")))
                          (Some (mkStream (bytes "no such file"))) in
  (exists d, outcome p =
             inl (Generator BadExitStatusError
                    (message "ffmpeg"
                             (String.concat " " ["-i"; "in.mp4"; "out.mp4"]) d))) /\
  effects p = [EvWait; EvRead Stdout 256; EvRead Stderr 256; EvPop].
Proof.
  cbv zeta.
  apply (X6_ascii_output_bad_exit
           (popen ffmpeg 1 (Some (mkStream (bytes "error: codec")))
                           (Some (mkStream (bytes "no such file"))))
           1%Z "ffmpeg" ["-i"; "in.mp4"; "out.mp4"]
           (mkStream (bytes "error: codec")) (mkStream (bytes "no such file")));
    first [reflexivity | discriminate].
Defined.

Lemma decode_some (bs : list byte) (t : string) :
  decode bs = Some t -> t = string_of_list_byte bs.
Proof.
  unfold decode. destruct (utf8_valid bs); intro H; [|discriminate].
  now injection H as <-.
Qed.

Lemma length_string_of_list_byte (bs : list byte) :
  String.length (string_of_list_byte bs) = List.length bs.
Proof.
  unfold string_of_list_byte.
  induction bs as [|b bs IH]; simpl; [reflexivity | now rewrite IH].
Qed.

Lemma string_length_app (a b : string) :
  String.length (a ++ b) = (String.length a + String.length b)%nat.
Proof.
  induction a as [|c a IH]; simpl; [reflexivity | now rewrite IH].
Qed.

Lemma decoded_chunk_length (l : list byte) (t : string) :
  decode (firstn 256 l) = Some t -> (String.length t <= 256)%nat.
Proof.
  intro H. rewrite (decode_some _ _ H), length_string_of_list_byte, length_firstn.
  lia.
Qed.

(** X7: whatever the child wrote, the log reference of a failing [Popen]
    with both pipes present is at most 517 bytes long: 256 from each pipe
    and the five of " and ". *)
Theorem X7_log_reference_bounded
        (p : handle) (st : Z) (exe : string) (rest : list string)
        (s1 s2 : stream) (t1 t2 : string) :
  exact_popen p = true ->
  wait_result p = Some st -> st <> EX_OK ->
  args p = Some (exe :: rest) ->
  stdout p = Some (Some s1) -> stderr p = Some (Some s2) ->
  decode (firstn 256 (unread s1)) = Some t1 ->
  decode (firstn 256 (unread s2)) = Some t2 ->
  exists d,
    outcome p = inl (Generator BadExitStatusError
                       (message exe (String.concat " " rest) d)) /\
    (String.length d <= 517)%nat.
Proof.
  intros Hp Hw Hst Ha Hso Hse H1 H2.
  pose proof (decoded_chunk_length _ _ H1) as L1.
  pose proof (decoded_chunk_length _ _ H2) as L2.
  open_handle p. unfold_checker. simpl.
  rewrite (eqb_EX_OK_false _ Hst). simpl.
  rewrite H1. simpl. rewrite H2. simpl.
  destruct (String.eqb t2 t1); simpl.
  - exists t1. split; [reflexivity | lia].
  - eexists. split; [reflexivity|].
    change (String.length (t1 ++ " and " ++ t2) <= 517)%nat.
    rewrite !string_length_app. simpl. lia.
Qed.

Lemma X7_log_reference_bounded_witness :
  exists d,
    outcome (popen ffmpeg 1 (Some (mkStream (repeat x61 300)))
                            (Some (mkStream (repeat x62 300))))
    = inl (Generator BadExitStatusError
             (message "ffmpeg" (String.concat " " ["-i"; "in.mp4"; "out.mp4"]) d)) /\
    (String.length d <= 517)%nat.
Proof.
  apply (X7_log_reference_bounded
           (popen ffmpeg 1 (Some (mkStream (repeat x61 300)))
                           (Some (mkStream (repeat x62 300))))
           1%Z "ffmpeg" ["-i"; "in.mp4"; "out.mp4"]
           (mkStream (repeat x61 300)) (mkStream (repeat x62 300))
           (string_of_list_byte (repeat x61 256))
           (string_of_list_byte (repeat x62 256)));
    first [reflexivity | discriminate | (vm_compute; reflexivity)].
Defined.

(** X8: the two pipes are compared on their first 256 bytes only: when
    those agree, the message names that one text once, whatever follows in
    either pipe. *)
Theorem X8_compared_on_first_chunk
        (p : handle) (st : Z) (exe : string) (rest : list string)
        (s1 s2 : stream) (t : string) :
  exact_popen p = true ->
  wait_result p = Some st -> st <> EX_OK ->
  args p = Some (exe :: rest) ->
  stdout p = Some (Some s1) -> stderr p = Some (Some s2) ->
  firstn 256 (unread s1) = firstn 256 (unread s2) ->
  decode (firstn 256 (unread s1)) = Some t ->
  outcome p = inl (Generator BadExitStatusError
                     (message exe (String.concat " " rest) t)).
Proof.
  intros Hp Hw Hst Ha Hso Hse Heq Hd. open_handle p. unfold_checker. simpl.
  rewrite (eqb_EX_OK_false _ Hst). simpl.
  rewrite <- Heq, Hd. simpl. rewrite String.eqb_refl. reflexivity.
Qed.

Lemma X8_compared_on_first_chunk_witness :
  outcome (popen ffmpeg 1 (Some (mkStream (repeat x61 256 ++ [x62])%list))
                          (Some (mkStream (repeat x61 256 ++ [x63; x64])%list)))
  = inl (Generator BadExitStatusError
           (message "ffmpeg" (String.concat " " ["-i"; "in.mp4"; "out.mp4"])
                    (string_of_list_byte (repeat x61 256)))).
Proof.
  apply (X8_compared_on_first_chunk
           (popen ffmpeg 1 (Some (mkStream (repeat x61 256 ++ [x62])%list))
                           (Some (mkStream (repeat x61 256 ++ [x63; x64])%list)))
           1%Z "ffmpeg" ["-i"; "in.mp4"; "out.mp4"]
           (mkStream (repeat x61 256 ++ [x62])%list)
           (mkStream (repeat x61 256 ++ [x63; x64])%list));
    first [reflexivity | discriminate | (vm_compute; reflexivity)].
Defined.

(** X9: a failing handle whose argument list is empty never gets a
    [BadExitStatusError]: [args.pop(0)] has nothing to pop.  For a handle
    with named destinations the call leaves with [IndexError] and the
    handle is as before. *)
Theorem X9_empty_argument_list (p : handle) (st : Z) :
  wait_result p = Some st -> st <> EX_OK ->
  args p = Some [] ->
  (forall msg, outcome p <> inl (Generator BadExitStatusError msg)) /\
  (forall fo fe, exact_popen p = false ->
                 output p = Some fo -> error p = Some fe ->
                 outcome p = inl (Builtin IndexError) /\ after p = p).
Proof.
  intros Hw Hst Ha. open_handle p. unfold_checker. simpl.
  rewrite (eqb_EX_OK_false _ Hst). simpl. split.
  - intro msg. destruct ep; simpl; split_goal; discriminate.
  - intros fo fe Hp Ho He. subst. simpl.
    destruct (String.eqb _ _); simpl; split; reflexivity.
Qed.

Lemma X9_empty_argument_list_witness :
  let p := file_backed [] 2 (mkFile "out.log" []) (mkFile "err.log" []) in
  (forall msg, outcome p <> inl (Generator BadExitStatusError msg)) /\
  (forall fo fe, exact_popen p = false ->
                 output p = Some fo -> error p = Some fe ->
                 outcome p = inl (Builtin IndexError) /\ after p = p).
Proof.
  cbv zeta.
  apply (X9_empty_argument_list
           (file_backed [] 2 (mkFile "out.log" []) (mkFile "err.log" [])) 2%Z);
    first [reflexivity | discriminate].
Defined.

(** X10: the pop is seen by the next call.  After a failing call on a
    handle with named destinations the handle holds the tail of its
    argument list, so a second call on it reports the first argument as the
    executable, and leaves with [IndexError] when the command had no
    argument. *)
Theorem X10_second_call
        (p : handle) (st : Z) (exe : string) (rest : list string)
        (fo fe : named_file) :
  exact_popen p = false ->
  wait_result p = Some st -> st <> EX_OK ->
  args p = Some (exe :: rest) ->
  output p = Some fo -> error p = Some fe ->
  after p = set_args rest p /\
  outcome (after p) =
  match rest with
  | [] => inl (Builtin IndexError)
  | arg1 :: rest' =>
    inl (Generator BadExitStatusError
           (message arg1 (String.concat " " rest')
                    (if String.eqb (name fo) (name fe) then name fo
                     else name fo ++ " and " ++ name fe)))
  end.
Proof.
  intros Hp Hw Hst Ha Ho He. open_handle p. unfold_checker. simpl.
  rewrite (eqb_EX_OK_false _ Hst). simpl.
  rewrite (String.eqb_sym (name fe) (name fo)).
  destruct (String.eqb (name fo) (name fe)) eqn:E; simpl;
    (split; [reflexivity|]);
    rewrite (eqb_EX_OK_false _ Hst); simpl;
    rewrite (String.eqb_sym (name fe) (name fo)), E; simpl;
    destruct rest; reflexivity.
Qed.

Lemma X10_second_call_witness :
  let p := file_backed ffmpeg 2 (mkFile "out.log" []) (mkFile "err.log" []) in
  after p = set_args ["-i"; "in.mp4"; "out.mp4"] p /\
  outcome (after p) =
  inl (Generator BadExitStatusError
         (message "-i" (String.concat " " ["in.mp4"; "out.mp4"])
                  "out.log and err.log")).
Proof.
  cbv zeta.
  apply (X10_second_call
           (file_backed ffmpeg 2 (mkFile "out.log" []) (mkFile "err.log" []))
           2%Z "ffmpeg" ["-i"; "in.mp4"; "out.mp4"]
           (mkFile "out.log" []) (mkFile "err.log" []));
    first [reflexivity | discriminate].
Defined.

(** X11: a failing [Popen] with exactly one pipe, whose first 256 bytes
    decode, leaves with [TypeError] from line 49, whichever pipe it is; the
    present pipe has been read and the argument list is kept. *)
Theorem X11_one_pipe_type_error
        (p : handle) (st : Z) (l : list string) (s : stream) (t : string) :
  exact_popen p = true ->
  wait_result p = Some st -> st <> EX_OK ->
  args p = Some l ->
  decode (firstn 256 (unread s)) = Some t ->
  (stdout p = Some (Some s) /\ stderr p = Some None) \/
  (stdout p = Some None /\ stderr p = Some (Some s)) ->
  outcome p = inl (Builtin TypeError) /\
  args (after p) = Some l /\
  reads_streams p = true.
Proof.
  intros Hp Hw Hst Ha Hd [[Hso Hse]|[Hso Hse]];
    open_handle p; unfold_checker; simpl;
    rewrite (eqb_EX_OK_false _ Hst); simpl;
    rewrite Hd; simpl; repeat split.
Qed.

Lemma X11_one_pipe_type_error_witness :
  let p := popen ffmpeg 1 (Some (mkStream (bytes "error: codec"))) None in
  outcome p = inl (Builtin TypeError) /\
  args (after p) = Some ffmpeg /\
  reads_streams p = true.
Proof.
  cbv zeta.
  apply (X11_one_pipe_type_error
           (popen ffmpeg 1 (Some (mkStream (bytes "error: codec"))) None)
           1%Z ffmpeg (mkStream (bytes "error: codec")) "error: codec");
    first [reflexivity | discriminate | (left; split; reflexivity)].
Defined.

(** X12: the taxonomy is flat: every kind is a subclass of
    [MapsGeneratorError], and the only superclasses of a kind are itself
    and [MapsGeneratorError], so a handler for one leaf never catches
    another leaf. *)
Theorem X12_flat_hierarchy (k h : generator_error) :
  issubclass k MapsGeneratorError = true /\
  (issubclass k h = true <-> h = k \/ h = MapsGeneratorError).
Proof.
  split; [destruct k; reflexivity|].
  split.
  - destruct k, h; intro H; try discriminate H; auto.
  - intros [-> | ->]; destruct k; reflexivity.
Qed.

(** X13: a clause [except h:] around the checker catches what it raised
    exactly when a [BadExitStatusError] was raised and [h] is that class or
    the root of the taxonomy; the interpreter's errors pass through every
    such handler. *)
Theorem X13_handlers (p : handle) (h : generator_error) :
  caught_by h (outcome p) = true <->
  (exists msg, outcome p = inl (Generator BadExitStatusError msg)) /\
  (h = BadExitStatusError \/ h = MapsGeneratorError).
Proof.
  split.
  - intro H. destruct (outcome p) as [[k msg|b]|[]] eqn:E; simpl in H;
      try discriminate.
    pose proof (generator_kind_inv p k msg E) as ->.
    split; [eexists; reflexivity|].
    destruct h; try discriminate H; auto.
  - intros [[msg E] [-> | ->]]; rewrite E; reflexivity.
Qed.

Lemma X12_flat_hierarchy_witness :
  issubclass SkipError MapsGeneratorError = true.
Proof.
  apply (proj2 (proj2 (X12_flat_hierarchy SkipError MapsGeneratorError))).
  right. reflexivity.
Defined.

Lemma X13_handlers_witness :
  caught_by MapsGeneratorError (outcome (popen ffmpeg 1 None None)) = true.
Proof.
  apply (proj2 (X13_handlers (popen ffmpeg 1 None None) MapsGeneratorError)).
  split; [eexists; reflexivity | right; reflexivity].
Defined.
